(** * The Gomoku launcher ([src/start.py])

    The script imports the two front-end classes and, when it is executed as
    the main program, looks at [sys.argv], builds one of the two front-ends
    with [size=10] and calls its [run] method.

    The front-end classes [UI] and [GomokuGUI] live in other modules; here
    they are the environment of the script.  The script is embedded as a
    finite tree of calls into that environment, and it is executed against
    an arbitrary environment, which answers every call or does not return
    from it. *)

From Stdlib Require Import ZArith String List Bool Lia.
Import ListNotations.

Set Implicit Arguments.

Local Open Scope string_scope.
Local Open Scope Z_scope.
Local Open Scope list_scope.

(** ** The Python primitives the script uses *)

Module Py.

(** The only exception the script's own expressions could raise: the
    subscript [sys.argv[1]]. *)
Variant exn : Set := IndexError.

Variant result (A : Type) : Type :=
| Ok (a : A)
| Err (e : exn).
Arguments Ok {A} a.
Arguments Err {A} e.

(** [len(l)] *)
Definition len {A : Type} (l : list A) : Z := Z.of_nat (length l).

(** [l[i]]: a negative index counts from the end; an index out of range
    raises [IndexError]. *)
Definition getitem {A : Type} (l : list A) (i : Z) : result A :=
  let j := if i <? 0 then i + len l else i in
  if (0 <=? j) && (j <? len l)
  then match nth_error l (Z.to_nat j) with
       | Some x => Ok x
       | None => Err IndexError
       end
  else Err IndexError.

(** [a == b] on [str] *)
Definition str_eq (a b : string) : bool := String.eqb a b.

End Py.

Import Py.

(** ** The process the script runs in *)

(** [__name__] of the module and [sys.argv]; [sys.argv[0]] is the script
    name when the script is started from the command line. *)
Record process : Type := {
  name__ : string;
  sys_argv : list string
}.

(** The arguments after the program name, [sys.argv[1:]]. *)
Definition arguments (argv : list string) : list string := tl argv.

(** The two front-end classes the script names.  [UI] is the text front-end
    (TextMode), [GomokuGUI] the graphical one (GraphicalMode). *)
Variant FrontEndClass : Set := UI | GomokuGUI.

(** The condition of the [if] on line 7,
    [len(sys.argv) > 1 and sys.argv[1] == "--ui"].
    [and] evaluates its right operand only when the left one is true. *)
Definition use_text_ui (argv : list string) : result bool :=
  if len argv >? 1
  then match getitem argv 1 with
       | Ok a => Ok (str_eq a "--ui")
       | Err e => Err e
       end
  else Ok false.

Section Launcher.

(** Objects of the front-end classes, and the state of everything outside
    the script (terminal, display, environment variables, files). *)
Variable Instance : Type.
Variable World : Type.

(** *** Calls the script makes into its environment *)

Variant callE : Type -> Type :=
| Import (module : string) (names : list string) : callE unit
| Construct (cls : FrontEndClass) (size : Z) : callE Instance
| Run (self : Instance) : callE unit.

(** *** Programs: finite trees of calls *)

Inductive prog (R : Type) : Type :=
| Ret (r : R)
| Raise (e : exn)
| Call (X : Type) (c : callE X) (k : X -> prog R).
Arguments Ret {R} r.
Arguments Raise {R} e.
Arguments Call {R X} c k.

Fixpoint bind {A B : Type} (t : prog A) (f : A -> prog B) : prog B :=
  match t with
  | Ret a => f a
  | Raise e => Raise e
  | Call c k => Call c (fun x => bind (k x) f)
  end.

Definition call {X : Type} (c : callE X) : prog X := Call c (fun x => Ret x).

Definition lift {A : Type} (r : result A) : prog A :=
  match r with
  | Ok a => Ret a
  | Err e => Raise e
  end.

Notation "x <- c ;; k" := (bind c (fun x => k))
  (at level 61, c at next level, right associativity).
Notation "c ;;; k" := (bind c (fun _ => k))
  (at level 61, right associativity).

(** *** The script *)

(** Lines 1 to 3: [import sys], [from src.ui.ui import UI],
    [from src.gui.gui import GomokuGUI]. *)
Definition imports : prog unit :=
  call (Import "sys" []) ;;;
  call (Import "src.ui.ui" ["UI"]) ;;;
  call (Import "src.gui.gui" ["GomokuGUI"]).

(** Lines 7 to 12: the body of [if __name__ == "__main__":]. *)
Definition main_block (argv : list string) : prog unit :=
  text <- lift (use_text_ui argv) ;;
  gomoku_game <- (if text : bool
                  then call (Construct UI 10)
                  else call (Construct GomokuGUI 10)) ;;
  call (Run gomoku_game).

(** The whole module. *)
Definition start (p : process) : prog unit :=
  imports ;;;
  if str_eq (name__ p) "__main__"
  then main_block (sys_argv p)
  else Ret tt.

(** *** Running a program against an environment *)

(** The environment answers a call ([Some x]) or does not return from it
    ([None]: the callee raised, never returned, or ended the process).
    The script has no [try], so a call that does not return ends the
    script. *)
Definition env : Type := forall X : Type, callE X -> World -> World * option X.

Variant event : Type :=
| Imported (module : string) (names : list string) (returned : bool)
| Constructed (cls : FrontEndClass) (size : Z) (res : option Instance)
| Ran (self : Instance) (returned : bool).

Definition returned_ {X : Type} (r : option X) : bool :=
  match r with Some _ => true | None => false end.

Definition event_of {X : Type} (c : callE X) : option X -> event :=
  match c in callE T return option T -> event with
  | Import m ns => fun r => Imported m ns (returned_ r)
  | Construct cls size => fun r => Constructed cls size r
  | Run self => fun r => Ran self (returned_ r)
  end.

Variant outcome (R : Type) : Type :=
| Finished (r : R)
| Uncaught (e : exn)
| Aborted.
Arguments Finished {R} r.
Arguments Uncaught {R} e.
Arguments Aborted {R}.

Record execution (R : Type) : Type := Execution {
  trace : list event;
  world : World;
  ending : outcome R
}.

Fixpoint exec {R : Type} (h : env) (t : prog R) (w : World) : execution R :=
  match t with
  | Ret r => Execution [] w (Finished r)
  | Raise e => Execution [] w (Uncaught e)
  | Call c k =>
      match h _ c w with
      | (w', None) => Execution [event_of c None] w' Aborted
      | (w', Some x) =>
          let r := exec h (k x) w' in
          Execution (event_of c (Some x) :: trace r) (world r) (ending r)
      end
  end.

(** *** What a trace shows *)

(** The constructor calls of a trace, as (class, size), in order. *)
Definition constructor_calls (l : list event) : list (FrontEndClass * Z) :=
  flat_map (fun e => match e with
                     | Constructed cls size _ => [(cls, size)]
                     | _ => []
                     end) l.

(** The instances the constructor calls of a trace returned. *)
Definition constructed (l : list event) : list Instance :=
  flat_map (fun e => match e with
                     | Constructed _ _ (Some g) => [g]
                     | _ => []
                     end) l.

(** The objects [run] was invoked on. *)
Definition run_calls (l : list event) : list Instance :=
  flat_map (fun e => match e with
                     | Ran g _ => [g]
                     | _ => []
                     end) l.

(** The three import statements ran to their end from [w], leaving the
    trace [l0] and the world [w0]. *)
Definition imports_done (h : env) (w : World) (l0 : list event) (w0 : World) : Prop :=
  exec h imports w = Execution l0 w0 (Finished tt).

End Launcher.

Arguments Ret {Instance R} r.
Arguments Raise {Instance R} e.
Arguments Call {Instance R X} c k.
Arguments Import {Instance} module names.
Arguments Construct {Instance} cls size.
Arguments Run {Instance} self.
Arguments Imported {Instance} module names returned.
Arguments Constructed {Instance} cls size res.
Arguments Ran {Instance} self returned.
Arguments Finished {R} r.
Arguments Uncaught {R} e.
Arguments Aborted {R}.
Arguments imports {Instance}.
Arguments main_block {Instance} argv.
Arguments start {Instance} p.

(** ** Two concrete environments *)

Module Sample.

(** Objects are numbered; the world counts the objects made so far. *)
Definition Instance : Type := nat.
Definition World : Type := nat.

(** Every call returns; a constructor returns a fresh object. *)
Definition cooperative : env Instance World :=
  fun X c =>
    match c in callE _ T return World -> World * option T with
    | Import _ _ => fun w => (w, Some tt)
    | Construct _ _ => fun w => (S w, Some w)
    | Run _ => fun w => (w, Some tt)
    end.

(** As [cooperative], but [run] never returns to the script. *)
Definition blocking : env Instance World :=
  fun X c =>
    match c in callE _ T return World -> World * option T with
    | Import _ _ => fun w => (w, Some tt)
    | Construct _ _ => fun w => (S w, Some w)
    | Run _ => fun w => (w, None)
    end.

(** The constructors fail. *)
Definition broken : env Instance World :=
  fun X c =>
    match c in callE _ T return World -> World * option T with
    | Import _ _ => fun w => (w, Some tt)
    | Construct _ _ => fun w => (w, None)
    | Run _ => fun w => (w, Some tt)
    end.

Definition as_main (argv : list string) : process :=
  {| name__ := "__main__"; sys_argv := argv |}.

Definition as_import (argv : list string) : process :=
  {| name__ := "src.start"; sys_argv := argv |}.

Definition import_events : list (event Instance) :=
  [Imported "sys" [] true; Imported "src.ui.ui" ["UI"] true;
   Imported "src.gui.gui" ["GomokuGUI"] true].

End Sample.

(** ** The import statements in a trace *)

(** The import statements a trace shows, as (module, names), in order. *)
Definition import_calls {Instance : Type} (l : list (event Instance))
  : list (string * list string) :=
  flat_map (fun e => match e with
                     | Imported m ns _ => [(m, ns)]
                     | _ => []
                     end) l.

Module Headless.

(** A machine on which the graphical module cannot be imported: the import
    of [src.gui.gui] does not return.  Every other call returns. *)
Definition no_gui : env Sample.Instance Sample.World :=
  fun X c =>
    match c in callE _ T return Sample.World -> Sample.World * option T with
    | Import m _ => fun w => (w, if String.eqb m "src.gui.gui" then None else Some tt)
    | Construct _ _ => fun w => (S w, Some w)
    | Run _ => fun w => (w, Some tt)
    end.

End Headless.

(** ** The script on concrete inputs *)

Example getitem_empty : getitem ([] : list string) 1 = Err IndexError.
Proof. reflexivity. Qed.

Example run_ui :
  exec Sample.cooperative (start (Sample.as_main ["start.py"; "--ui"])) 0%nat
  = Execution (Sample.import_events ++ [Constructed UI 10 (Some 0%nat); Ran 0%nat true]) 1%nat (Finished tt).
Proof. reflexivity. Qed.

Example run_gui_no_arguments :
  exec Sample.cooperative (start (Sample.as_main ["start.py"])) 0%nat
  = Execution (Sample.import_events ++ [Constructed GomokuGUI 10 (Some 0%nat); Ran 0%nat true]) 1%nat (Finished tt).
Proof. reflexivity. Qed.

Example run_gui_other_argument :
  trace (exec Sample.blocking (start (Sample.as_main ["start.py"; "somethingelse"])) 5%nat)
  = Sample.import_events ++ [Constructed GomokuGUI 10 (Some 5%nat); Ran 5%nat false].
Proof. reflexivity. Qed.

Example run_ui_extra_argument :
  trace (exec Sample.cooperative (start (Sample.as_main ["start.py"; "--ui"; "extra"])) 0%nat)
  = Sample.import_events ++ [Constructed UI 10 (Some 0%nat); Ran 0%nat true].
Proof. reflexivity. Qed.

Example run_constructor_fails :
  exec Sample.broken (start (Sample.as_main ["start.py"; "--ui"])) 0%nat
  = Execution (Sample.import_events ++ [Constructed UI 10 None]) 0%nat Aborted.
Proof. reflexivity. Qed.

Example run_imported :
  exec Sample.cooperative (start (Sample.as_import ["pytest"; "--ui"])) 0%nat
  = Execution Sample.import_events 0%nat (Finished tt).
Proof. reflexivity. Qed.

(** ** What the script does, in general *)

Unset Implicit Arguments.

Section Properties.

Context {Instance World : Type}.
Implicit Types (h : env Instance World) (w : World) (p : process).
Implicit Types (argv : list string) (l : list (event Instance)).

(** The value of the condition on line 7. *)
Local Abbreviation flag argv :=
  (match nth_error argv 1 with
   | Some a => str_eq a "--ui"
   | None => false
   end).

Local Abbreviation cls_of b := (if b then UI else GomokuGUI).

(** *** The condition *)

Lemma len_gt_1 (a0 a1 : string) (rest : list string) :
  (len (a0 :: a1 :: rest) >? 1) = true.
Proof.
  unfold len. rewrite Z.gtb_ltb. apply Z.ltb_lt.
  cbn [length]. lia.
Qed.

Lemma getitem_1 (a0 a1 : string) (rest : list string) :
  getitem (a0 :: a1 :: rest) 1 = Ok a1.
Proof.
  unfold getitem. cbn [Z.ltb Z.compare Z.leb andb].
  pose proof (len_gt_1 a0 a1 rest) as H.
  rewrite Z.gtb_ltb in H. rewrite H. reflexivity.
Qed.

Lemma use_text_ui_value argv : use_text_ui argv = Ok (flag argv).
Proof.
  destruct argv as [|a0 [|a1 rest]]; try reflexivity.
  unfold use_text_ui. rewrite len_gt_1, getitem_1. reflexivity.
Qed.

Lemma first_argument_nth argv : hd_error (arguments argv) = nth_error argv 1.
Proof. destruct argv as [|a0 [|a1 rest]]; reflexivity. Qed.

Lemma flag_true argv : flag argv = true <-> hd_error (arguments argv) = Some "--ui".
Proof.
  rewrite first_argument_nth.
  destruct (nth_error argv 1) as [a|].
  - unfold str_eq. rewrite String.eqb_eq. split; congruence.
  - split; discriminate.
Qed.

Lemma flag_false argv : flag argv = false <-> hd_error (arguments argv) <> Some "--ui".
Proof.
  rewrite <- flag_true. destruct (flag argv); split; congruence.
Qed.

(** *** Executions *)

Lemma exec_bind (A B : Type) h (t : prog Instance A) (k : A -> prog Instance B) w :
  exec h (bind t k) w =
  match ending (exec h t w) with
  | Finished a =>
      let r := exec h (k a) (world (exec h t w)) in
      Execution (trace (exec h t w) ++ trace r) (world r) (ending r)
  | Uncaught e => Execution (trace (exec h t w)) (world (exec h t w)) (Uncaught e)
  | Aborted => Execution (trace (exec h t w)) (world (exec h t w)) Aborted
  end.
Proof.
  revert w. induction t as [a|e|X c k' IH]; intros w; simpl.
  - destruct (exec h (k a) w); reflexivity.
  - reflexivity.
  - destruct (h X c w) as [w' [x|]]; simpl; [|reflexivity].
    rewrite IH. destruct (ending (exec h (k' x) w')); reflexivity.
Qed.

(** The body of the main block: one constructor call, then [run] on what
    it returned, then nothing. *)
Lemma main_block_shape argv :
  main_block argv
  = Call (Construct (cls_of (flag argv)) 10)
         (fun g : Instance => Call (Run g) (fun u => Ret u)).
Proof.
  unfold main_block. rewrite use_text_ui_value. cbn [lift bind].
  destruct (flag argv); reflexivity.
Qed.

Lemma exec_main_block h argv w :
  exec h (main_block argv) w =
  let cls := cls_of (flag argv) in
  match h _ (Construct cls 10) w with
  | (w1, None) => Execution [Constructed cls 10 None] w1 Aborted
  | (w1, Some g) =>
      match h _ (Run g) w1 with
      | (w2, None) => Execution [Constructed cls 10 (Some g); Ran g false] w2 Aborted
      | (w2, Some _) => Execution [Constructed cls 10 (Some g); Ran g true] w2 (Finished tt)
      end
  end.
Proof.
  rewrite main_block_shape. cbv zeta.
  generalize (cls_of (flag argv)). intros cls. simpl.
  destruct (h _ (Construct cls 10) w) as [w1 [g|]]; [|reflexivity].
  simpl. destruct (h _ (Run g) w1) as [w2 [[]|]]; reflexivity.
Qed.

Lemma imports_no_front_end h w :
  constructor_calls (trace (exec h imports w)) = []
  /\ constructed (trace (exec h imports w)) = []
  /\ run_calls (trace (exec h imports w)) = [].
Proof.
  unfold imports. simpl.
  destruct (h _ (Import "sys" []) w) as [w1 [[]|]]; simpl; [|now auto].
  destruct (h _ (Import "src.ui.ui" ["UI"]) w1) as [w2 [[]|]]; simpl; [|now auto].
  destruct (h _ (Import "src.gui.gui" ["GomokuGUI"]) w2) as [w3 [[]|]]; simpl; now auto.
Qed.

Lemma imports_done_trace h w l0 w0 :
  imports_done h w l0 w0 ->
  l0 = [Imported "sys" [] true; Imported "src.ui.ui" ["UI"] true;
        Imported "src.gui.gui" ["GomokuGUI"] true].
Proof.
  unfold imports_done, imports. simpl.
  destruct (h _ (Import "sys" []) w) as [w1 [[]|]]; simpl; [|discriminate].
  destruct (h _ (Import "src.ui.ui" ["UI"]) w1) as [w2 [[]|]]; simpl; [|discriminate].
  destruct (h _ (Import "src.gui.gui" ["GomokuGUI"]) w2) as [w3 [[]|]]; simpl; [|discriminate].
  intros H. injection H as <- _. reflexivity.
Qed.

Lemma is_main_true p : name__ p = "__main__" -> str_eq (name__ p) "__main__" = true.
Proof. intros ->. reflexivity. Qed.

Lemma is_main_false p : name__ p <> "__main__" -> str_eq (name__ p) "__main__" = false.
Proof. intros H. unfold str_eq. now apply String.eqb_neq. Qed.

Lemma exec_start_main h w p l0 w0 :
  name__ p = "__main__" ->
  imports_done h w l0 w0 ->
  exec h (start p) w =
  let r := exec h (main_block (sys_argv p)) w0 in
  Execution (l0 ++ trace r) (world r) (ending r).
Proof.
  intros Hmain Himp. unfold start. rewrite exec_bind.
  unfold imports_done in Himp. rewrite Himp. simpl.
  rewrite (is_main_true p Hmain). reflexivity.
Qed.

Lemma exec_start_imported h w p :
  name__ p <> "__main__" -> exec h (start p) w = exec h imports w.
Proof.
  intros Hname. unfold start. rewrite exec_bind.
  rewrite (is_main_false p Hname).
  destruct (exec h imports w) as [l0 w0 [[]|e|]]; simpl; [|reflexivity..].
  rewrite app_nil_r. reflexivity.
Qed.

Lemma constructor_calls_app l l' :
  constructor_calls (l ++ l') = constructor_calls l ++ constructor_calls l'.
Proof. unfold constructor_calls. apply flat_map_app. Qed.

Lemma constructor_calls_main_block h argv w :
  constructor_calls (trace (exec h (main_block argv) w)) = [(cls_of (flag argv), 10)].
Proof.
  rewrite exec_main_block. cbv zeta.
  generalize (cls_of (flag argv)). intros cls.
  destruct (h _ (Construct cls 10) w) as [w1 [g|]]; [|reflexivity].
  destruct (h _ (Run g) w1) as [w2 [u|]]; reflexivity.
Qed.

(** The constructor calls of a whole run of the script. *)
Lemma constructor_calls_start h w p :
  constructor_calls (trace (exec h (start p) w)) =
  match ending (exec h imports w) with
  | Finished _ =>
      if str_eq (name__ p) "__main__"
      then [(cls_of (flag (sys_argv p)), 10)]
      else []
  | _ => []
  end.
Proof.
  unfold start. rewrite exec_bind.
  destruct (imports_no_front_end h w) as (Hc & _ & _).
  destruct (ending (exec h imports w)) as [[]|e|]; cbn [trace]; try exact Hc.
  rewrite constructor_calls_app, Hc. cbn [app].
  destruct (str_eq (name__ p) "__main__").
  - apply constructor_calls_main_block.
  - reflexivity.
Qed.

Lemma constructor_calls_start_main h w p l0 w0 :
  name__ p = "__main__" ->
  imports_done h w l0 w0 ->
  constructor_calls (trace (exec h (start p) w)) = [(cls_of (flag (sys_argv p)), 10)].
Proof.
  intros Hmain Himp. rewrite constructor_calls_start.
  unfold imports_done in Himp. rewrite Himp. simpl.
  rewrite (is_main_true p Hmain). reflexivity.
Qed.

Lemma constructed_le_calls l :
  (length (constructed l) <= length (constructor_calls l))%nat.
Proof.
  induction l as [|[m ns b|cls size [g|]|g b] l IH]; simpl; lia.
Qed.

Lemma imports_ending h w :
  ending (exec h imports w) = Finished tt \/ ending (exec h imports w) = Aborted.
Proof.
  unfold imports. simpl.
  destruct (h _ (Import "sys" []) w) as [w1 [[]|]]; simpl; [|now right].
  destruct (h _ (Import "src.ui.ui" ["UI"]) w1) as [w2 [[]|]]; simpl; [|now right].
  destruct (h _ (Import "src.gui.gui" ["GomokuGUI"]) w2) as [w3 [[]|]]; simpl; auto.
Qed.

Lemma main_block_ending h argv w :
  ending (exec h (main_block argv) w) = Finished tt
  \/ ending (exec h (main_block argv) w) = Aborted.
Proof.
  rewrite exec_main_block. cbv zeta.
  generalize (cls_of (flag argv)). intros cls.
  destruct (h _ (Construct cls 10) w) as [w1 [g|]]; [|now right].
  destruct (h _ (Run g) w1) as [w2 [u|]]; auto.
Qed.

(** The whole trace of a run as the main program, once the imports are
    through. *)
Lemma trace_start_main h w p l0 w0 :
  name__ p = "__main__" ->
  imports_done h w l0 w0 ->
  let cls := cls_of (flag (sys_argv p)) in
  match h _ (Construct cls 10) w0 with
  | (_, None) =>
      trace (exec h (start p) w) = l0 ++ [Constructed cls 10 None]
      /\ ending (exec h (start p) w) = Aborted
  | (w1, Some g) =>
      trace (exec h (start p) w)
      = l0 ++ [Constructed cls 10 (Some g); Ran g (returned_ (snd (h _ (Run g) w1)))]
      /\ ending (exec h (start p) w)
         = (if returned_ (snd (h _ (Run g) w1)) then Finished tt else Aborted)
  end.
Proof.
  intros Hmain Himp. rewrite (exec_start_main h w p l0 w0 Hmain Himp).
  rewrite exec_main_block. cbv zeta.
  generalize (cls_of (flag (sys_argv p))). intros cls.
  destruct (h _ (Construct cls 10) w0) as [w1 [g|]]; [|now split].
  destruct (h _ (Run g) w1) as [w2 [u|]]; now split.
Qed.

(** *** The claims *)

(** C1.  When the script runs as the main program and the first argument
    after the program name, [sys.argv[1]], is exactly ["--ui"], the one
    constructor call of the run is [UI(size=10)]: the text front-end is
    built and the graphical one is not. *)
Theorem ui_flag_selects_text_front_end h w p l0 w0 :
  name__ p = "__main__" ->
  hd_error (arguments (sys_argv p)) = Some "--ui" ->
  imports_done h w l0 w0 ->
  constructor_calls (trace (exec h (start p) w)) = [(UI, 10)].
Proof.
  intros Hmain Harg Himp.
  rewrite (constructor_calls_start_main h w p l0 w0 Hmain Himp).
  apply flag_true in Harg. rewrite Harg. reflexivity.
Qed.

(** C2.  When the script runs as the main program and the argument list is
    empty, or its first element is any string other than ["--ui"], the one
    constructor call of the run is [GomokuGUI(size=10)]: the graphical
    front-end is built with board size 10. *)
Theorem other_arguments_select_graphical_front_end h w p l0 w0 :
  name__ p = "__main__" ->
  arguments (sys_argv p) = []
  \/ (exists a rest, arguments (sys_argv p) = a :: rest /\ a <> "--ui") ->
  imports_done h w l0 w0 ->
  constructor_calls (trace (exec h (start p) w)) = [(GomokuGUI, 10)].
Proof.
  intros Hmain Harg Himp.
  rewrite (constructor_calls_start_main h w p l0 w0 Hmain Himp).
  assert (Hf : flag (sys_argv p) = false).
  { apply flag_false. destruct Harg as [->|(a & rest & -> & Ha)]; simpl.
    - discriminate.
    - congruence. }
  rewrite Hf. reflexivity.
Qed.

(** C3.  Whatever the process and whatever the environment does, every
    constructor call of a run of the script passes [size = 10]. *)
Theorem board_size_is_10 h w p cls size :
  In (cls, size) (constructor_calls (trace (exec h (start p) w))) ->
  size = 10.
Proof.
  rewrite constructor_calls_start.
  destruct (ending (exec h imports w)) as [u|e|]; try contradiction.
  destruct (str_eq (name__ p) "__main__"); [|contradiction].
  intros [H|[]]. congruence.
Qed.


(** C5.  The condition on line 7 has a value for every [sys.argv]: the
    subscript [sys.argv[1]], which alone would raise [IndexError] when
    there is no argument, is only evaluated behind [len(sys.argv) > 1].
    No run of the script ends in an exception of the script's own, and a
    run as the main program maps to exactly one of the two classes. *)
Theorem selection_total_no_error_path h w p :
  (exists b, use_text_ui (sys_argv p) = Ok b)
  /\ (arguments (sys_argv p) = [] ->
      getitem (sys_argv p) 1 = Err IndexError
      /\ use_text_ui (sys_argv p) = Ok false)
  /\ (forall e, ending (exec h (start p) w) <> Uncaught e)
  /\ (forall l0 w0,
        name__ p = "__main__" ->
        imports_done h w l0 w0 ->
        constructor_calls (trace (exec h (start p) w)) = [(UI, 10)]
        \/ constructor_calls (trace (exec h (start p) w)) = [(GomokuGUI, 10)]).
Proof.
  split; [|split; [|split]].
  - eexists. apply use_text_ui_value.
  - destruct (sys_argv p) as [|a0 [|a1 rest]]; simpl; intros H.
    + split; reflexivity.
    + split; reflexivity.
    + discriminate.
  - intros e. unfold start. rewrite exec_bind.
    destruct (imports_ending h w) as [H|H]; rewrite H; cbn [ending]; [|discriminate].
    destruct (str_eq (name__ p) "__main__"); [|discriminate].
    destruct (main_block_ending h (sys_argv p) (world (exec h imports w))) as [H'|H'];
      rewrite H'; discriminate.
  - intros l0 w0 Hmain Himp.
    rewrite (constructor_calls_start_main h w p l0 w0 Hmain Himp).
    destruct (flag (sys_argv p)); auto.
Qed.

(** C6.  Two runs as the main program with equal argument lists make the
    same constructor call, the same class with the same size, whatever the
    two environments and the two worlds they start in are. *)
Theorem selection_deterministic h1 h2 w1 w2 p1 p2 l1 l2 w1' w2' :
  name__ p1 = "__main__" ->
  name__ p2 = "__main__" ->
  arguments (sys_argv p1) = arguments (sys_argv p2) ->
  imports_done h1 w1 l1 w1' ->
  imports_done h2 w2 l2 w2' ->
  constructor_calls (trace (exec h1 (start p1) w1))
  = constructor_calls (trace (exec h2 (start p2) w2)).
Proof.
  intros Hm1 Hm2 Hargs Hi1 Hi2.
  rewrite (constructor_calls_start_main h1 w1 p1 l1 w1' Hm1 Hi1).
  rewrite (constructor_calls_start_main h2 w2 p2 l2 w2' Hm2 Hi2).
  rewrite <- !first_argument_nth, Hargs. reflexivity.
Qed.

(** C7.  Two runs as the main program whose argument lists agree on being
    empty and on their first element each make exactly one constructor
    call, and it is the same one, the same class with size 10: the arguments
    after the first have no effect.  In particular, when the first list is
    ["--ui"] followed by any extra arguments, both runs build the text
    front-end, [UI(size=10)]. *)
Theorem later_arguments_ignored h1 h2 w1 w2 p1 p2 l1 l2 w1' w2' :
  name__ p1 = "__main__" ->
  name__ p2 = "__main__" ->
  hd_error (arguments (sys_argv p1)) = hd_error (arguments (sys_argv p2)) ->
  imports_done h1 w1 l1 w1' ->
  imports_done h2 w2 l2 w2' ->
  (exists cls,
      constructor_calls (trace (exec h1 (start p1) w1)) = [(cls, 10)]
      /\ constructor_calls (trace (exec h2 (start p2) w2)) = [(cls, 10)])
  /\ (forall extra,
        arguments (sys_argv p1) = "--ui" :: extra ->
        constructor_calls (trace (exec h1 (start p1) w1)) = [(UI, 10)]
        /\ constructor_calls (trace (exec h2 (start p2) w2)) = [(UI, 10)]).
Proof.
  intros Hm1 Hm2 Hhd Hi1 Hi2.
  rewrite (constructor_calls_start_main h1 w1 p1 l1 w1' Hm1 Hi1).
  rewrite (constructor_calls_start_main h2 w2 p2 l2 w2' Hm2 Hi2).
  assert (Hflag : flag (sys_argv p1) = flag (sys_argv p2)).
  { rewrite <- !first_argument_nth, Hhd. reflexivity. }
  split.
  - exists (cls_of (flag (sys_argv p2))). rewrite Hflag. split; reflexivity.
  - intros extra Hargs.
    assert (Ht : flag (sys_argv p1) = true).
    { apply flag_true. rewrite Hargs. reflexivity. }
    rewrite <- Hflag, Ht. split; reflexivity.
Qed.

(** C8.  In a run as the main program, after the imports (which construct
    nothing and run nothing) the script makes one constructor call with
    size 10; when it returns an instance the script invokes [run] once, on
    that instance, and does nothing after it; the script finishes exactly
    when [run] returns.  When the constructor does not return, the run
    ends there. *)
Theorem construct_then_run_once h w p l0 w0 :
  name__ p = "__main__" ->
  imports_done h w l0 w0 ->
  constructor_calls l0 = [] /\ run_calls l0 = []
  /\ exists cls,
      match h _ (Construct cls 10) w0 with
      | (_, None) =>
          trace (exec h (start p) w) = l0 ++ [Constructed cls 10 None]
          /\ ending (exec h (start p) w) = Aborted
      | (_, Some g) =>
          exists b,
            trace (exec h (start p) w) = l0 ++ [Constructed cls 10 (Some g); Ran g b]
            /\ run_calls (trace (exec h (start p) w)) = [g]
            /\ (b = true <-> ending (exec h (start p) w) = Finished tt)
      end.
Proof.
  intros Hmain Himp.
  pose proof (imports_no_front_end h w) as (Hc & _ & Hr).
  pose proof Himp as Himp'. unfold imports_done in Himp'.
  rewrite Himp' in Hc, Hr. cbn [trace] in Hc, Hr.
  split; [exact Hc|]. split; [exact Hr|].
  pose proof (trace_start_main h w p l0 w0 Hmain Himp) as Ht. cbv zeta in Ht.
  exists (cls_of (flag (sys_argv p))).
  destruct (h _ (Construct (cls_of (flag (sys_argv p))) 10) w0) as [w1 [g|]].
  - destruct Ht as [Ht He]. eexists. split; [exact Ht|]. split.
    + rewrite Ht. unfold run_calls in *. rewrite flat_map_app, Hr. reflexivity.
    + rewrite He. destruct (returned_ (snd (h _ (Run g) w1))); split;
        solve [reflexivity | discriminate].
  - exact Ht.
Qed.

(** C9.  The condition is true exactly when [sys.argv[1]] exists and is the
    string ["--ui"].  First arguments ["--UI"], ["--ui "], ["-ui"] and
    ["--ui=x"] give the graphical front-end, and so does ["--ui"] at a
    later position behind a different first argument. *)
Theorem flag_match_is_exact :
  (forall argv, use_text_ui argv = Ok true <-> nth_error argv 1 = Some "--ui")
  /\ (forall h w p l0 w0 a,
        name__ p = "__main__" ->
        imports_done h w l0 w0 ->
        hd_error (arguments (sys_argv p)) = Some a ->
        In a ["--UI"; "--ui "; "-ui"; "--ui=x"] ->
        constructor_calls (trace (exec h (start p) w)) = [(GomokuGUI, 10)])
  /\ (forall h w p l0 w0 a rest,
        name__ p = "__main__" ->
        imports_done h w l0 w0 ->
        arguments (sys_argv p) = a :: rest ->
        a <> "--ui" ->
        In "--ui" rest ->
        constructor_calls (trace (exec h (start p) w)) = [(GomokuGUI, 10)]).
Proof.
  split; [|split].
  - intros argv. rewrite use_text_ui_value. split.
    + intros H. injection H as H. apply flag_true in H.
      rewrite first_argument_nth in H. exact H.
    + intros H. rewrite H. reflexivity.
  - intros h w p l0 w0 a Hmain Himp Hhd Hin.
    rewrite (constructor_calls_start_main h w p l0 w0 Hmain Himp).
    rewrite <- first_argument_nth, Hhd.
    simpl in Hin. destruct Hin as [<-|[<-|[<-|[<-|[]]]]]; reflexivity.
  - intros h w p l0 w0 a rest Hmain Himp Hargs Ha _.
    rewrite (constructor_calls_start_main h w p l0 w0 Hmain Himp).
    assert (Hf : flag (sys_argv p) = false).
    { apply flag_false. rewrite Hargs. simpl. congruence. }
    rewrite Hf. reflexivity.
Qed.

(** C10.  When [__name__] is not ["__main__"], a run of the script is a
    run of its import statements and nothing more: no constructor is
    called, no instance is made, [run] is not invoked, and the world is
    the one the imports left. *)
Theorem import_constructs_and_runs_nothing h w p :
  name__ p <> "__main__" ->
  exec h (start p) w = exec h imports w
  /\ constructor_calls (trace (exec h (start p) w)) = []
  /\ constructed (trace (exec h (start p) w)) = []
  /\ run_calls (trace (exec h (start p) w)) = [].
Proof.
  intros Hname. rewrite (exec_start_imported h w p Hname).
  split; [reflexivity|]. apply imports_no_front_end.
Qed.

End Properties.

(** ** The claims on concrete runs *)

Lemma ui_flag_selects_text_front_end_witness :
  constructor_calls
    (trace (exec Sample.cooperative (start (Sample.as_main ["start.py"; "--ui"])) 0%nat))
  = [(UI, 10)].
Proof.
  apply (ui_flag_selects_text_front_end Sample.cooperative 0%nat
           (Sample.as_main ["start.py"; "--ui"]) Sample.import_events 0%nat);
    reflexivity.
Defined.

Lemma other_arguments_select_graphical_front_end_witness :
  constructor_calls
    (trace (exec Sample.blocking (start (Sample.as_main ["start.py"; "somethingelse"])) 3%nat))
  = [(GomokuGUI, 10)].
Proof.
  apply (other_arguments_select_graphical_front_end Sample.blocking 3%nat
           (Sample.as_main ["start.py"; "somethingelse"]) Sample.import_events 3%nat).
  - reflexivity.
  - right. exists "somethingelse", []. split; [reflexivity | discriminate].
  - reflexivity.
Defined.

Lemma board_size_is_10_witness :
  In (GomokuGUI, 10)
     (constructor_calls
        (trace (exec Sample.broken (start (Sample.as_main ["start.py"])) 0%nat)))
  /\ (10 : Z) = 10.
Proof.
  assert (H : In (GomokuGUI, 10)
                (constructor_calls
                   (trace (exec Sample.broken (start (Sample.as_main ["start.py"])) 0%nat)))).
  { left. reflexivity. }
  split; [exact H|].
  exact (board_size_is_10 Sample.broken 0%nat (Sample.as_main ["start.py"]) GomokuGUI 10 H).
Defined.


Lemma selection_total_no_error_path_witness :
  (getitem ["start.py"] 1 = Err IndexError /\ use_text_ui ["start.py"] = Ok false)
  /\ (constructor_calls
        (trace (exec Sample.cooperative (start (Sample.as_main ["start.py"])) 0%nat))
      = [(UI, 10)]
      \/ constructor_calls
           (trace (exec Sample.cooperative (start (Sample.as_main ["start.py"])) 0%nat))
         = [(GomokuGUI, 10)]).
Proof.
  destruct (selection_total_no_error_path Sample.cooperative 0%nat
              (Sample.as_main ["start.py"])) as (_ & Hguard & _ & Hsel).
  split.
  - apply Hguard. reflexivity.
  - apply (Hsel Sample.import_events 0%nat); reflexivity.
Defined.

Lemma selection_deterministic_witness :
  constructor_calls
    (trace (exec Sample.cooperative (start (Sample.as_main ["start.py"; "--ui"])) 0%nat))
  = constructor_calls
      (trace (exec Sample.broken (start (Sample.as_main ["/opt/gomoku/start.py"; "--ui"])) 7%nat)).
Proof.
  apply (selection_deterministic Sample.cooperative Sample.broken 0%nat 7%nat
           (Sample.as_main ["start.py"; "--ui"])
           (Sample.as_main ["/opt/gomoku/start.py"; "--ui"])
           Sample.import_events Sample.import_events 0%nat 7%nat);
    reflexivity.
Defined.

Lemma later_arguments_ignored_witness :
  constructor_calls
    (trace (exec Sample.cooperative (start (Sample.as_main ["start.py"; "--ui"; "extra"])) 0%nat))
  = [(UI, 10)]
  /\ constructor_calls
       (trace (exec Sample.blocking (start (Sample.as_main ["start.py"; "--ui"])) 4%nat))
     = [(UI, 10)].
Proof.
  apply (proj2 (later_arguments_ignored Sample.cooperative Sample.blocking 0%nat 4%nat
                  (Sample.as_main ["start.py"; "--ui"; "extra"])
                  (Sample.as_main ["start.py"; "--ui"])
                  Sample.import_events Sample.import_events 0%nat 4%nat
                  eq_refl eq_refl eq_refl eq_refl eq_refl)
               ["extra"]).
  reflexivity.
Defined.

Lemma construct_then_run_once_witness :
  exists cls g b,
    trace (exec Sample.cooperative (start (Sample.as_main ["start.py"])) 2%nat)
    = Sample.import_events ++ [Constructed cls 10 (Some g); Ran g b]
    /\ run_calls (trace (exec Sample.cooperative (start (Sample.as_main ["start.py"])) 2%nat))
       = [g].
Proof.
  destruct (construct_then_run_once Sample.cooperative 2%nat
              (Sample.as_main ["start.py"]) Sample.import_events 2%nat
              eq_refl eq_refl) as (_ & _ & cls & H).
  simpl in H. destruct H as (b & Ht & Hr & _).
  exists cls, 2%nat, b. split; [exact Ht | exact Hr].
Defined.

Lemma flag_match_is_exact_witness :
  constructor_calls
    (trace (exec Sample.cooperative (start (Sample.as_main ["start.py"; "--UI"])) 0%nat))
  = [(GomokuGUI, 10)]
  /\ constructor_calls
       (trace (exec Sample.cooperative (start (Sample.as_main ["start.py"; "x"; "--ui"])) 0%nat))
     = [(GomokuGUI, 10)].
Proof.
  destruct (@flag_match_is_exact Sample.Instance Sample.World) as (_ & Hfirst & Hlater).
  split.
  - apply (Hfirst Sample.cooperative 0%nat (Sample.as_main ["start.py"; "--UI"])
             Sample.import_events 0%nat "--UI"); try reflexivity.
    left. reflexivity.
  - apply (Hlater Sample.cooperative 0%nat (Sample.as_main ["start.py"; "x"; "--ui"])
             Sample.import_events 0%nat "x" ["--ui"]); try reflexivity.
    + discriminate.
    + left. reflexivity.
Defined.

Lemma import_constructs_and_runs_nothing_witness :
  exec Sample.cooperative (start (Sample.as_import ["pytest"; "--ui"])) 0%nat
  = exec Sample.cooperative imports 0%nat
  /\ constructor_calls
       (trace (exec Sample.cooperative (start (Sample.as_import ["pytest"; "--ui"])) 0%nat))
     = []
  /\ constructed
       (trace (exec Sample.cooperative (start (Sample.as_import ["pytest"; "--ui"])) 0%nat))
     = []
  /\ run_calls
       (trace (exec Sample.cooperative (start (Sample.as_import ["pytest"; "--ui"])) 0%nat))
     = [].
Proof.
  apply (import_constructs_and_runs_nothing Sample.cooperative 0%nat
           (Sample.as_import ["pytest"; "--ui"])).
  discriminate.
Defined.

(** ** The import statements and the main block together *)

Example run_ui_without_gui_module :
  exec Headless.no_gui (start (Sample.as_main ["start.py"; "--ui"])) 0%nat
  = Execution [Imported "sys" [] true; Imported "src.ui.ui" ["UI"] true;
               Imported "src.gui.gui" ["GomokuGUI"] false] 0%nat Aborted.
Proof. reflexivity. Qed.

Section Imports.

Context {Instance World : Type}.
Implicit Types (h : env Instance World) (w : World) (p : process).

Lemma exec_start_imports_failed h w p :
  ending (exec h imports w) <> Finished tt ->
  exec h (start p) w = exec h imports w.
Proof.
  intros Hfail. unfold start. rewrite exec_bind.
  destruct (imports_ending h w) as [H|H]; [contradiction|].
  rewrite H. destruct (exec h imports w) as [l0 w0 e]. simpl in *. now subst.
Qed.

(** X1.  Lines 2 and 3 import both front-end modules before the main block,
    whatever the arguments.  When one of the import statements does not
    return, the run is the run of the imports alone: no constructor is
    called, [run] is not invoked and the script is aborted, also when
    ["--ui"] asks for the text front-end and only the graphical module is
    missing. *)
Theorem failed_import_starts_no_front_end h w p :
  ending (exec h imports w) <> Finished tt ->
  exec h (start p) w = exec h imports w
  /\ constructor_calls (trace (exec h (start p) w)) = []
  /\ run_calls (trace (exec h (start p) w)) = []
  /\ ending (exec h (start p) w) = Aborted.
Proof.
  intros Hfail. rewrite (exec_start_imports_failed h w p Hfail).
  destruct (imports_no_front_end h w) as (Hc & _ & Hr).
  repeat split; try assumption.
  destruct (imports_ending h w) as [H|H]; [contradiction|exact H].
Qed.

(** X2.  The import statements run in the order of the source, [sys], then
    [src.ui.ui], then [src.gui.gui]; one that does not return is the last
    event of the run, so the later modules are not imported; and what
    follows the three imports imports nothing. *)
Theorem imports_in_source_order h w p :
  trace (exec h (start p) w) = [Imported "sys" [] false]
  \/ trace (exec h (start p) w)
     = [Imported "sys" [] true; Imported "src.ui.ui" ["UI"] false]
  \/ trace (exec h (start p) w)
     = [Imported "sys" [] true; Imported "src.ui.ui" ["UI"] true;
        Imported "src.gui.gui" ["GomokuGUI"] false]
  \/ exists rest,
      trace (exec h (start p) w)
      = [Imported "sys" [] true; Imported "src.ui.ui" ["UI"] true;
         Imported "src.gui.gui" ["GomokuGUI"] true] ++ rest
      /\ import_calls rest = [].
Proof.
  unfold start. rewrite exec_bind. unfold imports. simpl.
  destruct (h _ (Import "sys" []) w) as [w1 [[]|]]; simpl; [|now left].
  destruct (h _ (Import "src.ui.ui" ["UI"]) w1) as [w2 [[]|]]; simpl;
    [|now right; left].
  destruct (h _ (Import "src.gui.gui" ["GomokuGUI"]) w2) as [w3 [[]|]]; simpl;
    [|now right; right; left].
  right; right; right. eexists. split; [reflexivity|].
  destruct (str_eq (name__ p) "__main__"); [|reflexivity].
  rewrite exec_main_block. cbv zeta.
  match goal with |- context [Construct ?c 10] => generalize c end. intros cls.
  destruct (h _ (Construct cls 10) w3) as [w4 [g|]]; [|reflexivity].
  destruct (h _ (Run g) w4) as [w5 [u|]]; reflexivity.
Qed.

(** X3.  In every run, whatever [__name__], the arguments and the
    environment, [run] is invoked on exactly the instances the constructor
    calls returned, in the same order, and at most once: the script never
    calls [run] on anything it did not construct, never leaves a constructed
    front-end without calling [run] on it, and never runs twice. *)
Theorem run_exactly_on_constructed h w p :
  run_calls (trace (exec h (start p) w)) = constructed (trace (exec h (start p) w))
  /\ (length (run_calls (trace (exec h (start p) w))) <= 1)%nat.
Proof.
  assert (H : run_calls (trace (exec h (start p) w))
              = constructed (trace (exec h (start p) w))).
  { unfold start. rewrite exec_bind.
    destruct (imports_no_front_end h w) as (_ & Hc & Hr).
    destruct (ending (exec h imports w)) as [[]|e|]; cbn [trace];
      try (rewrite Hc, Hr; reflexivity).
    unfold run_calls, constructed in *. rewrite !flat_map_app, Hc, Hr. cbn [app].
    destruct (str_eq (name__ p) "__main__"); [|reflexivity].
    rewrite exec_main_block. cbv zeta.
    match goal with |- context [Construct ?c 10] => generalize c end. intros cls.
    destruct (h _ (Construct cls 10) (world (exec h imports w))) as [w1 [g|]];
      [|reflexivity].
    destruct (h _ (Run g) w1) as [w2 [u|]]; reflexivity. }
  split; [exact H|].
  rewrite H.
  pose proof (constructed_le_calls (trace (exec h (start p) w))) as Hle.
  assert (Hcalls : (length (constructor_calls (trace (exec h (start p) w))) <= 1)%nat).
  { rewrite constructor_calls_start.
    destruct (ending (exec h imports w)); cbn [length]; try lia.
    destruct (str_eq (name__ p) "__main__"); cbn [length]; lia. }
  lia.
Qed.

(** X4.  Under one environment and from one world, two processes with the
    same [__name__] whose argument lists agree on being empty and on their
    first element have the same run: the same trace with the same
    instances, the same final world and the same ending.  The program name
    [sys.argv[0]] and the arguments after the first change nothing. *)
Theorem run_depends_on_first_argument_only h w p1 p2 :
  name__ p1 = name__ p2 ->
  hd_error (arguments (sys_argv p1)) = hd_error (arguments (sys_argv p2)) ->
  exec h (start p1) w = exec h (start p2) w.
Proof.
  intros Hname Hhd. unfold start. rewrite !exec_bind, Hname.
  destruct (str_eq (name__ p2) "__main__"); [|reflexivity].
  rewrite !main_block_shape.
  rewrite !first_argument_nth in Hhd. rewrite Hhd. reflexivity.
Qed.

End Imports.

Lemma failed_import_starts_no_front_end_witness :
  exec Headless.no_gui (start (Sample.as_main ["start.py"; "--ui"])) 0%nat
  = exec Headless.no_gui imports 0%nat
  /\ constructor_calls
       (trace (exec Headless.no_gui (start (Sample.as_main ["start.py"; "--ui"])) 0%nat))
     = []
  /\ run_calls
       (trace (exec Headless.no_gui (start (Sample.as_main ["start.py"; "--ui"])) 0%nat))
     = []
  /\ ending (exec Headless.no_gui (start (Sample.as_main ["start.py"; "--ui"])) 0%nat)
     = Aborted.
Proof.
  apply (failed_import_starts_no_front_end Headless.no_gui 0%nat
           (Sample.as_main ["start.py"; "--ui"])).
  discriminate.
Defined.

Lemma run_depends_on_first_argument_only_witness :
  exec Sample.blocking (start (Sample.as_main ["start.py"; "--ui"; "extra"])) 1%nat
  = exec Sample.blocking (start (Sample.as_main ["/opt/gomoku/start.py"; "--ui"])) 1%nat.
Proof.
  apply (run_depends_on_first_argument_only Sample.blocking 1%nat
           (Sample.as_main ["start.py"; "--ui"; "extra"])
           (Sample.as_main ["/opt/gomoku/start.py"; "--ui"]));
    reflexivity.
Defined.
